(** * emigui: the canvas front end ([docs/frontend.js])

    A shallow embedding of the draw-command interpreter [paintCommand], the
    frame driver [paint_gui] and the pointer adapter [mouse_pos_from_event],
    with the properties the specification states about them.

    JavaScript numbers are IEEE 754 binary64 values: they are modelled by
    Rocq's primitive floats, whose operations are the same ones.  The canvas
    and the logic layer are outside the program: every call the program makes
    on them is recorded, in order, in a trace of events.  [getContext] is
    taken to return the 2D context.  The trace of [paintCommand] is of the
    calls and assignments on the context the program makes when each of them
    returns; [on_browser] cuts it where the context of a browser throws.
    What the logic layer returns, or throws, is left open. *)

From Stdlib Require Import Floats ZArith String List Bool.
Import ListNotations.

Local Open Scope string_scope.

Set Warnings "-register-all".

(** ** JavaScript values

    The commands come out of [JSON.parse], so a command is any JSON value;
    [VUndefined] is what reading an absent property gives.  An object keeps
    its own properties as a list of pairs, first binding first. *)

Inductive value : Type :=
| VUndefined
| VNull
| VBool (b : bool)
| VNum (n : float)
| VStr (s : string)
| VObj (fields : list (string * value))
| VArr (elems : list value).

Inductive exn : Type :=
| TypeError
| SyntaxError
| HostError (what : string).

(** ** The trace of calls on the outside world *)

(** What the program does to the 2D context. Arguments are recorded as the
    values the program passes. *)
Inductive surface_op : Type :=
| SetFillStyle (v : value)
| SetStrokeStyle (v : value)
| SetLineWidth (v : value)
| SetFont (v : value)
| SetTextAlign (v : value)
| ClearRect (x y w h : value)
| BeginPath
| ClosePath
| MoveTo (x y : value)
| LineTo (x y : value)
| QuadraticCurveTo (cpx cpy x y : value)
| Arc (x y radius startAngle endAngle : value) (anticlockwise : bool)
| Fill
| Stroke
| FillText (text x y : value).

Inductive event : Type :=
| GetContext (contextId : string)   (* canvas.getContext(contextId) *)
| Surface (op : surface_op)         (* a call or an assignment on ctx *)
| ShowGui (input : string).         (* wasm_bindgen.show_gui(input) *)

Definition surface_op_of (e : event) : option surface_op :=
  match e with
  | Surface op => Some op
  | _ => None
  end.

(** The surface operations of a trace, in order. *)
Fixpoint surface_ops (t : list event) : list surface_op :=
  match t with
  | [] => []
  | e :: t' =>
      match surface_op_of e with
      | Some op => op :: surface_ops t'
      | None => surface_ops t'
      end
  end.

(** The surface after a trace, for any surface and any effect of the
    operations on it. *)
Definition surface_after {S : Type} (apply : S -> surface_op -> S)
    (s : S) (t : list event) : S :=
  fold_left apply (surface_ops t) s.

(** ** Computations: a trace, then a result or a thrown exception *)

Inductive outcome (A : Type) : Type :=
| Return (a : A)
| Throw (e : exn).

Arguments Return {A} a.
Arguments Throw {A} e.

Definition M (A : Type) : Type := (list event * outcome A)%type.

Definition ret {A : Type} (a : A) : M A := ([], Return a).

Definition throw {A : Type} (e : exn) : M A := ([], Throw e).

Definition lift {A : Type} (o : outcome A) : M A := ([], o).

Definition emit (e : event) : M unit := ([e], Return tt).

Definition bind {A B : Type} (m : M A) (k : A -> M B) : M B :=
  match m with
  | (t, Return a) => let (t', o) := k a in ((t ++ t')%list, o)
  | (t, Throw e) => (t, Throw e)
  end.

Declare Scope js_scope.
Delimit Scope js_scope with js.
Notation "x <- m ;; k" := (bind m (fun x => k))
  (at level 61, m at next level, right associativity) : js_scope.
Notation "m ;; k" := (bind m (fun _ => k))
  (at level 61, right associativity) : js_scope.

Local Open Scope js_scope.

Definition trace {A : Type} (m : M A) : list event := fst m.

Definition result {A : Type} (m : M A) : outcome A := snd m.

(** ** The fragment of JavaScript the program uses *)

Fixpoint lookup (p : string) (fields : list (string * value)) : option value :=
  match fields with
  | [] => None
  | (q, v) :: rest => if String.eqb q p then Some v else lookup p rest
  end.

(** [o.p] for an object with the own properties [fields]. *)
Definition field (fields : list (string * value)) (p : string) : value :=
  match lookup p fields with
  | Some v => v
  | None => VUndefined
  end.

(** [v.p]. Reading a property of [undefined] or [null] throws a TypeError;
    the other values that are not objects have none of the properties this
    program reads ([kind], [fill_style], [pos], [x], ...): inherited and
    exotic properties such as [length] are not modelled. *)
Definition get (v : value) (p : string) : M value :=
  match v with
  | VUndefined | VNull => throw TypeError
  | VObj fields => ret (field fields p)
  | VBool _ | VNum _ | VStr _ | VArr _ => ret VUndefined
  end.

(** [v === s] for a string literal [s], as the [switch] compares. *)
Definition strict_equals (v : value) (s : string) : bool :=
  match v with
  | VStr t => String.eqb t s
  | _ => false
  end.

(** [Math.PI], the binary64 value nearest to pi. *)
Definition Math_PI : float := 0x1.921fb54442d18p+1%float.

(** SameValueZero of ECMAScript on numbers: equal as IEEE values ([+0] and
    [-0] are the same number), and NaN the same as NaN. *)
Definition same_number (a b : float) : bool :=
  PrimFloat.eqb a b || (PrimFloat.is_nan a && PrimFloat.is_nan b).

Definition same_value (a b : value) : bool :=
  match a, b with
  | VNum x, VNum y => same_number x y
  | _, _ => false
  end.

(** ** The host objects *)

Record DOMRect : Type := { left : float; top : float }.

Record HTMLCanvasElement : Type := {
  width : float;
  height : float;
  getBoundingClientRect : DOMRect
}.

Record MouseEvent : Type := { clientX : float; clientY : float }.

Definition point (x y : float) : value :=
  VObj [("x", VNum x); ("y", VNum y)].

(** ** A path read as geometry

    The straight and curved pieces a sequence of path operations traces,
    each from the point the previous one ended at. *)

Definition pt : Type := (value * value)%type.

Inductive segment : Type :=
| Edge (a b : pt)
| Curve (a control b : pt).

Fixpoint segments (current : option pt) (ops : list surface_op) : list segment :=
  match ops with
  | [] => []
  | BeginPath :: rest => segments None rest
  | MoveTo x y :: rest => segments (Some (x, y)) rest
  | LineTo x y :: rest =>
      match current with
      | Some p => Edge p (x, y) :: segments (Some (x, y)) rest
      | None => segments (Some (x, y)) rest
      end
  | QuadraticCurveTo cpx cpy x y :: rest =>
      match current with
      | Some p => Curve p (cpx, cpy) (x, y) :: segments (Some (x, y)) rest
      | None => Curve (cpx, cpy) (cpx, cpy) (x, y) :: segments (Some (x, y)) rest
      end
  | _ :: rest => segments current rest
  end.

Definition same_point (p q : pt) : bool :=
  same_value (fst p) (fst q) && same_value (snd p) (snd q).

Definition same_segment (s t : segment) : bool :=
  match s, t with
  | Edge a b, Edge a' b' => same_point a a' && same_point b b'
  | Curve a c b, Curve a' c' b' =>
      same_point a a' && same_point c c' && same_point b b'
  | _, _ => false
  end.

Fixpoint same_outline (l l' : list segment) : bool :=
  match l, l' with
  | [], [] => true
  | s :: r, s' :: r' => same_segment s s' && same_outline r r'
  | _, _ => false
  end.

(** The outline of the axis-aligned rectangle from (x, y) to (x + w, y + h),
    clockwise from its top-left corner, with a curve of no extent at each
    corner. *)
Definition rectangle_outline (x y w h : float) : list segment :=
  let tl := (VNum x, VNum y) in
  let tr := (VNum (x + w), VNum y) in
  let br := (VNum (x + w), VNum (y + h)) in
  let bl := (VNum x, VNum (y + h)) in
  [Edge tl tr; Curve tr tr tr; Edge tr br; Curve br br br;
   Edge br bl; Curve bl bl bl; Edge bl tl; Curve tl tl tl].

(** [r === 0] *)
Definition is_zero (r : float) : Prop := PrimFloat.eqb r 0 = true.

(** ** The schema of the logic-layer boundary

    The typed values on the logic layer's side of the boundary, and their
    structural representation as the objects the front end builds and
    reads. *)

Module Schema.

(** Modelled from the spec: the Point of the data model; the type is
    declared on the logic layer's side, which is not in [frontend.js]. *)
Record Point : Type := { px : float; py : float }.

(** Modelled from the spec: the alignments of a [text] command. *)
Inductive TextAlign : Type := AlignLeft | AlignCenter | AlignRight.

(** Modelled from the spec: the five variants of Command with their
    required fields; a colour or a font is a string. *)
Inductive Command : Type :=
| Clear (fill_style : string)
| Line (from to : Point) (line_width : float) (stroke_style : string)
| Circle (center : Point) (radius : float) (fill_style : string)
| RoundedRect (pos size : Point) (corner_radius : float) (fill_style : string)
| Text (pos : Point) (text font fill_style : string) (text_align : TextAlign).

(** Modelled from the spec: the Input Snapshot. *)
Record InputSnapshot : Type := { mouse_pos : Point; screen_size : Point }.

(** Modelled from the spec: serialization, missing from [frontend.js] (the
    serializer of the logic layer and the host's [JSON] functions), taken
    field for field: a record becomes the object with one property per
    field, under the field's name. *)
Definition serialize_point (p : Point) : value := point (px p) (py p).

(** Modelled from the spec: the serialized alignment is its name. *)
Definition serialize_align (a : TextAlign) : value :=
  match a with
  | AlignLeft => VStr "left"
  | AlignCenter => VStr "center"
  | AlignRight => VStr "right"
  end.

(** Modelled from the spec: a command is serialized with its [kind] tag
    and its fields, field for field. *)
Definition serialize_command (c : Command) : value :=
  match c with
  | Clear fill_style =>
      VObj [("kind", VStr "clear"); ("fill_style", VStr fill_style)]
  | Line from to line_width stroke_style =>
      VObj [("kind", VStr "line");
            ("from", serialize_point from); ("to", serialize_point to);
            ("line_width", VNum line_width);
            ("stroke_style", VStr stroke_style)]
  | Circle center radius fill_style =>
      VObj [("kind", VStr "circle");
            ("center", serialize_point center); ("radius", VNum radius);
            ("fill_style", VStr fill_style)]
  | RoundedRect pos size corner_radius fill_style =>
      VObj [("kind", VStr "rounded_rect");
            ("pos", serialize_point pos); ("size", serialize_point size);
            ("corner_radius", VNum corner_radius);
            ("fill_style", VStr fill_style)]
  | Text pos text font fill_style text_align =>
      VObj [("kind", VStr "text");
            ("pos", serialize_point pos); ("text", VStr text);
            ("font", VStr font); ("fill_style", VStr fill_style);
            ("text_align", serialize_align text_align)]
  end.

(** Modelled from the spec: the serialized Input Snapshot. *)
Definition serialize_snapshot (i : InputSnapshot) : value :=
  VObj [("mouse_pos", serialize_point (mouse_pos i));
        ("screen_size", serialize_point (screen_size i))].

Notation "'let?' x := m 'in' k" :=
  (match m with Some x => k | None => None end)
  (at level 10, x name, m at level 100, k at level 200).

(** Modelled from the spec: deserialization reads the fields back by name,
    and fails on a value that is not of the expected shape. *)
Definition property (v : value) (p : string) : option value :=
  match v with
  | VObj fields => lookup p fields
  | _ => None
  end.

(** Modelled from the spec: a number field. *)
Definition number (v : value) (p : string) : option float :=
  match property v p with
  | Some (VNum n) => Some n
  | _ => None
  end.

(** Modelled from the spec: a string field. *)
Definition text_of (v : value) (p : string) : option string :=
  match property v p with
  | Some (VStr s) => Some s
  | _ => None
  end.

(** Modelled from the spec: deserialization of a Point. *)
Definition deserialize_point (v : value) : option Point :=
  let? x := number v "x" in
  let? y := number v "y" in
  Some {| px := x; py := y |}.

(** Modelled from the spec: a Point field. *)
Definition point_of (v : value) (p : string) : option Point :=
  let? o := property v p in deserialize_point o.

(** Modelled from the spec: deserialization of an alignment. *)
Definition deserialize_align (v : value) : option TextAlign :=
  match v with
  | VStr s =>
      if String.eqb s "left" then Some AlignLeft
      else if String.eqb s "center" then Some AlignCenter
      else if String.eqb s "right" then Some AlignRight
      else None
  | _ => None
  end.

(** Modelled from the spec: deserialization of a Command, by its [kind]. *)
Definition deserialize_command (v : value) : option Command :=
  let? kind := text_of v "kind" in
  if String.eqb kind "clear" then
    let? fill_style := text_of v "fill_style" in
    Some (Clear fill_style)
  else if String.eqb kind "line" then
    let? from := point_of v "from" in
    let? to := point_of v "to" in
    let? line_width := number v "line_width" in
    let? stroke_style := text_of v "stroke_style" in
    Some (Line from to line_width stroke_style)
  else if String.eqb kind "circle" then
    let? center := point_of v "center" in
    let? radius := number v "radius" in
    let? fill_style := text_of v "fill_style" in
    Some (Circle center radius fill_style)
  else if String.eqb kind "rounded_rect" then
    let? pos := point_of v "pos" in
    let? size := point_of v "size" in
    let? corner_radius := number v "corner_radius" in
    let? fill_style := text_of v "fill_style" in
    Some (RoundedRect pos size corner_radius fill_style)
  else if String.eqb kind "text" then
    let? pos := point_of v "pos" in
    let? text := text_of v "text" in
    let? font := text_of v "font" in
    let? fill_style := text_of v "fill_style" in
    let? a := property v "text_align" in
    let? text_align := deserialize_align a in
    Some (Text pos text font fill_style text_align)
  else None.

(** Modelled from the spec: deserialization of a command sequence. *)
Fixpoint deserialize_commands (vs : list value) : option (list Command) :=
  match vs with
  | [] => Some []
  | v :: rest =>
      let? c := deserialize_command v in
      let? cs := deserialize_commands rest in
      Some (c :: cs)
  end.

(** Modelled from the spec: deserialization of an Input Snapshot. *)
Definition deserialize_snapshot (v : value) : option InputSnapshot :=
  let? m := point_of v "mouse_pos" in
  let? s := point_of v "screen_size" in
  Some {| mouse_pos := m; screen_size := s |}.

End Schema.

(** ** The 2D context of a browser

    A call on the context converts its arguments, left to right, to the
    types it takes, which can throw when an argument is not of that type;
    after that the calls the program makes return, but for [arc], which
    throws an IndexSizeError when its arguments are finite and the radius is
    negative (HTML standard, the ellipse method steps). *)

Definition IndexSizeError : exn := HostError "IndexSizeError".

Definition arc_throws (x y radius startAngle endAngle : float) : bool :=
  PrimFloat.is_finite x && PrimFloat.is_finite y
  && PrimFloat.is_finite radius
  && PrimFloat.is_finite startAngle && PrimFloat.is_finite endAngle
  && PrimFloat.ltb radius 0.

Section Browser.

(** The conversion to a number of a value that is not one, and to a string
    of a value that is not one: the host's, left open. *)
Variable to_double_other : value -> outcome float.
Variable to_string_other : value -> outcome string.

Definition to_double (v : value) : outcome float :=
  match v with
  | VNum n => Return n
  | _ => to_double_other v
  end.

Definition to_DOMString (v : value) : outcome string :=
  match v with
  | VStr s => Return s
  | _ => to_string_other v
  end.

Fixpoint to_doubles (vs : list value) : outcome (list float) :=
  match vs with
  | [] => Return []
  | v :: rest =>
      match to_double v with
      | Throw e => Throw e
      | Return n =>
          match to_doubles rest with
          | Throw e => Throw e
          | Return ns => Return (n :: ns)
          end
      end
  end.

Definition converted {A : Type} (o : outcome A) : outcome unit :=
  match o with
  | Return _ => Return tt
  | Throw e => Throw e
  end.

(** What a call or an assignment on the context does besides drawing: it
    returns or throws. *)
Definition context_call (op : surface_op) : outcome unit :=
  match op with
  | SetFillStyle v | SetStrokeStyle v | SetFont v | SetTextAlign v =>
      converted (to_DOMString v)
  | SetLineWidth v => converted (to_double v)
  | ClearRect x y w h => converted (to_doubles [x; y; w; h])
  | BeginPath | ClosePath | Fill | Stroke => Return tt
  | MoveTo x y | LineTo x y => converted (to_doubles [x; y])
  | QuadraticCurveTo cpx cpy x y => converted (to_doubles [cpx; cpy; x; y])
  | Arc x y radius startAngle endAngle _ =>
      match to_doubles [x; y; radius; startAngle; endAngle] with
      | Return [x'; y'; radius'; startAngle'; endAngle'] =>
          if arc_throws x' y' radius' startAngle' endAngle'
          then Throw IndexSizeError
          else Return tt
      | Return _ => Return tt
      | Throw e => Throw e
      end
  | FillText text x y =>
      match to_DOMString text with
      | Return _ => converted (to_doubles [x; y])
      | Throw e => Throw e
      end
  end.

(** What is carried out of a trace that ends in [o]: its events up to and
    including the first call the context throws on, which ends it, as
    nothing in the program catches. *)
Fixpoint carried_out (t : list event) (o : outcome unit) : M unit :=
  match t with
  | [] => ([], o)
  | Surface op :: t' =>
      match context_call op with
      | Return _ =>
          let (t'', o') := carried_out t' o in (Surface op :: t'', o')
      | Throw e => ([Surface op], Throw e)
      end
  | e :: t' => let (t'', o') := carried_out t' o in (e :: t'', o')
  end.

Definition on_browser (m : M unit) : M unit :=
  carried_out (trace m) (result m).

End Browser.

(** ** Sample inputs *)

Definition negative_circle_command : value :=
  VObj [("kind", VStr "circle"); ("fill_style", VStr "#00ff00");
        ("center", point 40 30); ("radius", VNum (-5))].

(** Stand-ins for the conversions of the host: what they give on
    [undefined]. *)
Definition to_double_stub (v : value) : outcome float := Return nan.

Definition to_string_stub (v : value) : outcome string := Return "undefined".

(** A stand-in for the conversions of [+] and [-]; NaN is what they give
    when an operand is [undefined]. *)
Definition to_NaN (a b : value) : value := VNum nan.

Definition canvas_800x600 : HTMLCanvasElement :=
  {| width := 800; height := 600;
     getBoundingClientRect := {| left := 50; top := 50 |} |}.

Definition canvas_320x200 : HTMLCanvasElement :=
  {| width := 320; height := 200;
     getBoundingClientRect := {| left := 0; top := 0 |} |}.

Definition clear_command : value :=
  VObj [("kind", VStr "clear"); ("fill_style", VStr "#111111")].

Definition rounded_rect_command : value :=
  VObj [("kind", VStr "rounded_rect"); ("fill_style", VStr "#ff1111");
        ("pos", point 100 100); ("size", point 200 100);
        ("corner_radius", VNum 20)].

Definition sharp_rect_command : value :=
  VObj [("kind", VStr "rounded_rect"); ("fill_style", VStr "#ff1111");
        ("pos", point 100 100); ("size", point 200 100);
        ("corner_radius", VNum 0)].

Definition circle_command : value :=
  VObj [("kind", VStr "circle"); ("fill_style", VStr "#00ff00");
        ("center", point 40 30); ("radius", VNum 5)].

Definition triangle_command : value :=
  VObj [("kind", VStr "triangle"); ("fill_style", VStr "#0000ff")].

Definition line_command : value :=
  VObj [("kind", VStr "line"); ("from", point 10 20); ("to", point 30 40);
        ("line_width", VNum 2); ("stroke_style", VStr "#ffffff")].

Definition text_command : value :=
  VObj [("kind", VStr "text"); ("pos", point 10 20); ("text", VStr "Hello");
        ("font", VStr "14px sans-serif"); ("fill_style", VStr "#ffffff");
        ("text_align", VStr "left")].

Definition canvas_800x600_moved : HTMLCanvasElement :=
  {| width := 800; height := 600;
     getBoundingClientRect := {| left := 10; top := 20 |} |}.

Definition pointer_at (x y : float) : MouseEvent :=
  {| clientX := x; clientY := y |}.

(** A logic layer that answers with the given commands, and one that fails. *)
Definition stringify_stub (input : value) : string := "snapshot".

Definition logic_ok (request : string) : outcome string := Return "commands".

Definition logic_fails (request : string) : outcome string :=
  Throw (HostError "unreachable").

Definition parse_as (commands : list value) (answer : string)
    : outcome (list value) :=
  Return commands.

Section Frontend.

(** [a + b] and [a - b] when an operand is not a number: the conversions of
    the language (to a string, to a number) are left open. *)
Variable add_coerce : value -> value -> value.
Variable sub_coerce : value -> value -> value.

Definition js_add (a b : value) : value :=
  match a, b with
  | VNum x, VNum y => VNum (x + y)
  | _, _ => add_coerce a b
  end.

Definition js_sub (a b : value) : value :=
  match a, b with
  | VNum x, VNum y => VNum (x - y)
  | _, _ => sub_coerce a b
  end.

(** The logic layer and the two [JSON] functions around it. The logic layer
    answers with an array of commands. *)
Variable JSON_stringify : value -> string.
Variable show_gui : string -> outcome string.
Variable JSON_parse : string -> outcome (list value).

(** A call or an assignment on [ctx]. *)
Definition ctx (op : surface_op) : M unit := emit (Surface op).

(** [v.p.q] *)
Definition get2 (v : value) (p q : string) : M value :=
  o <- get v p ;; get o q.

(** ** [paintCommand] *)

Definition paintCommand (canvas : HTMLCanvasElement) (cmd : value) : M unit :=
  emit (GetContext "2d") ;;
  kind <- get cmd "kind" ;;
  if strict_equals kind "clear" then
    fill_style <- get cmd "fill_style" ;;
    ctx (SetFillStyle fill_style) ;;
    ctx (ClearRect (VNum 0) (VNum 0)
           (VNum (width canvas)) (VNum (height canvas)))
  else if strict_equals kind "line" then
    ctx BeginPath ;;
    line_width <- get cmd "line_width" ;;
    ctx (SetLineWidth line_width) ;;
    stroke_style <- get cmd "stroke_style" ;;
    ctx (SetStrokeStyle stroke_style) ;;
    from_x <- get2 cmd "from" "x" ;;
    from_y <- get2 cmd "from" "y" ;;
    ctx (MoveTo from_x from_y) ;;
    to_x <- get2 cmd "to" "x" ;;
    to_y <- get2 cmd "to" "y" ;;
    ctx (LineTo to_x to_y) ;;
    ctx Stroke
  else if strict_equals kind "circle" then
    fill_style <- get cmd "fill_style" ;;
    ctx (SetFillStyle fill_style) ;;
    ctx BeginPath ;;
    center_x <- get2 cmd "center" "x" ;;
    center_y <- get2 cmd "center" "y" ;;
    radius <- get cmd "radius" ;;
    ctx (Arc center_x center_y radius
           (VNum 0) (VNum (2 * Math_PI)) false) ;;
    ctx Fill
  else if strict_equals kind "rounded_rect" then
    fill_style <- get cmd "fill_style" ;;
    ctx (SetFillStyle fill_style) ;;
    x <- get2 cmd "pos" "x" ;;
    y <- get2 cmd "pos" "y" ;;
    width <- get2 cmd "size" "x" ;;
    height <- get2 cmd "size" "y" ;;
    r <- get cmd "corner_radius" ;;
    ctx BeginPath ;;
    ctx (MoveTo (js_add x r) y) ;;
    ctx (LineTo (js_sub (js_add x width) r) y) ;;
    ctx (QuadraticCurveTo (js_add x width) y (js_add x width) (js_add y r)) ;;
    ctx (LineTo (js_add x width) (js_sub (js_add y height) r)) ;;
    ctx (QuadraticCurveTo (js_add x width) (js_add y height)
           (js_sub (js_add x width) r) (js_add y height)) ;;
    ctx (LineTo (js_add x r) (js_add y height)) ;;
    ctx (QuadraticCurveTo x (js_add y height)
           x (js_sub (js_add y height) r)) ;;
    ctx (LineTo x (js_add y r)) ;;
    ctx (QuadraticCurveTo x y (js_add x r) y) ;;
    ctx ClosePath ;;
    ctx Fill
  else if strict_equals kind "text" then
    font <- get cmd "font" ;;
    ctx (SetFont font) ;;
    fill_style <- get cmd "fill_style" ;;
    ctx (SetFillStyle fill_style) ;;
    text_align <- get cmd "text_align" ;;
    ctx (SetTextAlign text_align) ;;
    text <- get cmd "text" ;;
    pos_x <- get2 cmd "pos" "x" ;;
    pos_y <- get2 cmd "pos" "y" ;;
    ctx (FillText text pos_x pos_y)
  else
    ret tt.

(** ** [rust_gui] and [paint_gui] *)

Definition rust_gui (input : value) : M (list value) :=
  let request := JSON_stringify input in
  emit (ShowGui request) ;;
  answer <- lift (show_gui request) ;;
  lift (JSON_parse answer).

(** [for (...; _i < commands_1.length; _i++) body(commands_1[_i])] *)
Fixpoint for_each (commands : list value) (body : value -> M unit) : M unit :=
  match commands with
  | [] => ret tt
  | cmd :: rest => body cmd ;; for_each rest body
  end.

Definition snapshot (canvas : HTMLCanvasElement) (mouse_pos : value) : value :=
  VObj [("mouse_pos", mouse_pos);
        ("screen_size", point (width canvas) (height canvas))].

Definition paint_gui (canvas : HTMLCanvasElement) (mouse_pos : value) : M unit :=
  let input := snapshot canvas mouse_pos in
  commands <- rust_gui input ;;
  for_each commands (paintCommand canvas).

(** ** [mouse_pos_from_event] and the listeners of [initialize] *)

Definition mouse_pos_from_event (canvas : HTMLCanvasElement) (evt : MouseEvent)
    : value :=
  let rect := getBoundingClientRect canvas in
  point (clientX evt - left rect) (clientY evt - top rect).

Definition on_mouse (canvas : HTMLCanvasElement) (evt : MouseEvent) : M unit :=
  let mouse_pos := mouse_pos_from_event canvas evt in
  paint_gui canvas mouse_pos.

Definition initial_frame (canvas : HTMLCanvasElement) : M unit :=
  paint_gui canvas (point 0 0).

(** ** Notions the properties are stated with *)

(** The commands the loop of [paint_gui] reaches: all of them, up to and
    including the first whose interpretation throws. *)
Fixpoint reached (body : value -> M unit) (commands : list value) : list value :=
  match commands with
  | [] => []
  | cmd :: rest =>
      match result (body cmd) with
      | Return _ => cmd :: reached body rest
      | Throw _ => [cmd]
      end
  end.

(** A computation that touches nothing but the 2D context. *)
Definition draws_only {A : Type} (m : M A) : Prop :=
  exists ops, trace m = map Surface ops.

(** One of the five case labels of the [switch]. *)
Definition recognized (kind : value) : bool :=
  strict_equals kind "clear" || strict_equals kind "line"
  || strict_equals kind "circle" || strict_equals kind "rounded_rect"
  || strict_equals kind "text".

(** [cmd] is an object whose [kind] is the string [s]. *)
Definition has_kind (cmd : value) (s : string) : bool :=
  match cmd with
  | VObj fields => strict_equals (field fields "kind") s
  | _ => false
  end.

(** The outline of a rounded rectangle: four edges shortened by [r] at both
    ends, and after each the curve round the corner, whose control point is
    the corner itself. *)
Definition rounded_rect_outline (x y w h r : value) : list segment :=
  let right := js_add x w in
  let bottom := js_add y h in
  [Edge (js_add x r, y) (js_sub right r, y);
   Curve (js_sub right r, y) (right, y) (right, js_add y r);
   Edge (right, js_add y r) (right, js_sub bottom r);
   Curve (right, js_sub bottom r) (right, bottom) (js_sub right r, bottom);
   Edge (js_sub right r, bottom) (js_add x r, bottom);
   Curve (js_add x r, bottom) (x, bottom) (x, js_sub bottom r);
   Edge (x, js_sub bottom r) (x, js_add y r);
   Curve (x, js_add y r) (x, y) (js_add x r, y)].

(** A [clear] that does nothing to the surface but clear all of it. *)
Definition only_clears (canvas : HTMLCanvasElement) (cmd : value) : Prop :=
  surface_ops (trace (paintCommand canvas cmd)) =
  [ClearRect (VNum 0) (VNum 0) (VNum (width canvas)) (VNum (height canvas))].

(** A frame during which a drawing handle is acquired. *)
Definition acquires_handle (canvas : HTMLCanvasElement) (mouse_pos : value)
    : Prop :=
  In (GetContext "2d") (trace (paint_gui canvas mouse_pos)).

(** ** The rest of the front end *)

(** [js_gui]: the two commands it pushes, whatever the input. *)
Definition js_gui (input : value) : list value :=
  [VObj [("fillStyle", VStr "#111111"); ("kind", VStr "clear")];
   VObj [("fillStyle", VStr "#ff1111"); ("kind", VStr "rounded_rect");
         ("pos", point 100 100); ("radius", VNum 20);
         ("size", point 200 100)]].

(** [null] or [undefined]: the values whose properties cannot be read. *)
Definition nullish (v : value) : bool :=
  match v with
  | VUndefined | VNull => true
  | _ => false
  end.

(** The operations that change pixels. *)
Definition paints (op : surface_op) : bool :=
  match op with
  | ClearRect _ _ _ _ | Fill | Stroke | FillText _ _ _ => true
  | _ => false
  end.

(** The properties of a command that [paintCommand] reads. *)
Definition read_names : list string :=
  ["kind"; "fill_style"; "line_width"; "stroke_style"; "from"; "to";
   "center"; "radius"; "pos"; "size"; "corner_radius"; "font";
   "text_align"; "text"].

(** The commands on which [paintCommand] reads a property of [null] or
    [undefined]: the command itself, or the point a [line], [circle],
    [rounded_rect] or [text] is placed by. *)
Definition reads_nullish (cmd : value) : bool :=
  match cmd with
  | VUndefined | VNull => true
  | VObj fields =>
      let kind := field fields "kind" in
      if strict_equals kind "line" then
        nullish (field fields "from") || nullish (field fields "to")
      else if strict_equals kind "circle" then
        nullish (field fields "center")
      else if strict_equals kind "rounded_rect" then
        nullish (field fields "pos") || nullish (field fields "size")
      else if strict_equals kind "text" then
        nullish (field fields "pos")
      else false
  | _ => false
  end.

(** ** The page: [initialize], [wasm_loaded] and the loading of the module *)

Inductive page_event : Type :=
| LoadModule (path : string)        (* wasm_bindgen(path) *)
| ConsoleLog (msg : string)
| ConsoleError (e : exn)
| GetElementById (id : string)
| AddEventListener (type : string) (useCapture : bool)
| Frame (e : event).                (* an event of a call of paint_gui *)

Definition listener : Type := (string * (MouseEvent -> M unit))%type.

Record page : Type := {
  log : list page_event;
  listeners : list listener
}.

(** [initialize], in a document whose element "canvas" is [element]
    ([None] when [getElementById] finds none and returns [null]). The
    listeners are added before the first frame is painted. *)
Definition initialize (element : option HTMLCanvasElement)
    : page * outcome unit :=
  match element with
  | None =>
      ({| log := [GetElementById "canvas"]; listeners := [] |},
       Throw TypeError)
  | Some canvas =>
      let first := paint_gui canvas (point 0 0) in
      ({| log := GetElementById "canvas"
                 :: AddEventListener "mousemove" false
                 :: AddEventListener "mousedown" false
                 :: map Frame (trace first);
          listeners := [("mousemove", on_mouse canvas);
                        ("mousedown", on_mouse canvas)] |},
       result first)
  end.

Definition wasm_loaded (element : option HTMLCanvasElement)
    : page * outcome unit :=
  let (p, o) := initialize element in
  ({| log := ConsoleLog "wasm loaded" :: log p; listeners := listeners p |}, o).

(** [wasm_bindgen("./emgui_bg.wasm").then(wasm_loaded)["catch"](console.error)]:
    [loaded] is how the promise of the module settles; a rejection, of that
    promise or of the one [then] makes, goes to [console.error]. *)
Definition start (loaded : outcome unit) (element : option HTMLCanvasElement)
    : page :=
  match loaded with
  | Throw e =>
      {| log := [LoadModule "./emgui_bg.wasm"; ConsoleError e];
         listeners := [] |}
  | Return _ =>
      let (p, o) := wasm_loaded element in
      match o with
      | Return _ =>
          {| log := LoadModule "./emgui_bg.wasm" :: log p;
             listeners := listeners p |}
      | Throw e =>
          {| log := LoadModule "./emgui_bg.wasm" :: (log p ++ [ConsoleError e])%list;
             listeners := listeners p |}
      end
  end.

(** The calls an event of the given type causes: one of each listener added
    for that type, in the order they were added. *)
Definition dispatch (ls : list listener) (type : string) (evt : MouseEvent)
    : list (M unit) :=
  map (fun l => snd l evt)
    (filter (fun l => String.eqb (fst l) type) ls).

Definition frame_event_of (e : page_event) : option event :=
  match e with
  | Frame ev => Some ev
  | _ => None
  end.

(** What the frames in a log of the page did, in order. *)
Fixpoint frame_events (l : list page_event) : list event :=
  match l with
  | [] => []
  | e :: l' =>
      match frame_event_of e with
      | Some ev => ev :: frame_events l'
      | None => frame_events l'
      end
  end.

(** The number of calls of the logic layer in a trace. *)
Fixpoint logic_calls (t : list event) : nat :=
  match t with
  | [] => 0
  | ShowGui _ :: t' => S (logic_calls t')
  | _ :: t' => logic_calls t'
  end.

(** A command whose interpretation, in a browser, gets to [fill]. *)
Definition fill_reached (to_double_other : value -> outcome float)
    (to_string_other : value -> outcome string)
    (canvas : HTMLCanvasElement) (cmd : value) : Prop :=
  In (Surface Fill)
    (trace (on_browser to_double_other to_string_other
              (paintCommand canvas cmd))).

(** * Properties *)

(** ** Numbers: adding and subtracting zero *)

Lemma same_number_refl (a : float) : same_number a a = true.
Proof.
  unfold same_number, PrimFloat.is_nan.
  destruct (PrimFloat.eqb a a); reflexivity.
Qed.

(** Every number is a zero, an infinity, NaN or a finite number. *)
Lemma float_cases (a : float) :
  (exists s, a = SF2Prim (S754_zero s)) \/
  (exists s, a = SF2Prim (S754_infinity s)) \/
  a = SF2Prim S754_nan \/
  (exists s m e, Prim2SF a = S754_finite s m e).
Proof.
  pose proof (SF2Prim_Prim2SF a) as E.
  destruct (Prim2SF a) as [s | s | | s m e] eqn:P.
  - left. exists s. now symmetry.
  - right; left. exists s. now symmetry.
  - right; right; left. now symmetry.
  - right; right; right. now exists s, m, e.
Qed.

Lemma is_zero_cases (r : float) : is_zero r -> r = 0%float \/ r = (-0)%float.
Proof.
  unfold is_zero. rewrite FloatAxioms.eqb_spec.
  destruct (float_cases r) as [[s ->] | [[s ->] | [-> | (s & m & e & E)]]].
  - intros _. destruct s; [right | left]; reflexivity.
  - destruct s; discriminate.
  - discriminate.
  - rewrite E. destruct s; discriminate.
Qed.

Lemma add_zero (a r : float) : is_zero r -> same_number (a + r) a = true.
Proof.
  intros Hr.
  destruct (float_cases a) as [[s ->] | [[s ->] | [-> | (s & m & e & E)]]].
  - destruct (is_zero_cases r Hr) as [-> | ->]; destruct s; reflexivity.
  - destruct (is_zero_cases r Hr) as [-> | ->]; destruct s; reflexivity.
  - destruct (is_zero_cases r Hr) as [-> | ->]; reflexivity.
  - assert (a + r = a)%float as ->; [ | apply same_number_refl ].
    apply Prim2SF_inj. rewrite FloatAxioms.add_spec, E.
    destruct (is_zero_cases r Hr) as [-> | ->]; reflexivity.
Qed.

Lemma sub_zero (a r : float) : is_zero r -> same_number (a - r) a = true.
Proof.
  intros Hr.
  destruct (float_cases a) as [[s ->] | [[s ->] | [-> | (s & m & e & E)]]].
  - destruct (is_zero_cases r Hr) as [-> | ->]; destruct s; reflexivity.
  - destruct (is_zero_cases r Hr) as [-> | ->]; destruct s; reflexivity.
  - destruct (is_zero_cases r Hr) as [-> | ->]; reflexivity.
  - assert (a - r = a)%float as ->; [ | apply same_number_refl ].
    apply Prim2SF_inj. rewrite FloatAxioms.sub_spec, E.
    destruct (is_zero_cases r Hr) as [-> | ->]; reflexivity.
Qed.

(** ** Traces of computations *)

Lemma bind_ret {A B : Type} (a : A) (k : A -> M B) : bind (ret a) k = k a.
Proof. unfold bind, ret. destruct (k a); reflexivity. Qed.

Lemma bind_emit {B : Type} (e : event) (k : unit -> M B) :
  bind (emit e) k = (e :: trace (k tt), result (k tt)).
Proof. unfold bind, emit. destruct (k tt); reflexivity. Qed.

Lemma trace_bind_return {A B : Type} (m : M A) (k : A -> M B) (a : A) :
  result m = Return a ->
  trace (bind m k) = (trace m ++ trace (k a))%list /\
  result (bind m k) = result (k a).
Proof.
  destruct m as [t o]. cbn. intros ->. cbn.
  destruct (k a) as [t' o']. cbn. split; reflexivity.
Qed.

Lemma trace_bind_throw {A B : Type} (m : M A) (k : A -> M B) (e : exn) :
  result m = Throw e ->
  trace (bind m k) = trace m /\ result (bind m k) = Throw e.
Proof.
  destruct m as [t o]. cbn. intros ->. cbn. split; reflexivity.
Qed.

Lemma draws_only_bind {A B : Type} (m : M A) (k : A -> M B) :
  draws_only m -> (forall a, draws_only (k a)) -> draws_only (bind m k).
Proof.
  intros [ops Hm] Hk. destruct (result m) as [a | e] eqn:R.
  - destruct (Hk a) as [ops' Hk'].
    exists (ops ++ ops')%list.
    destruct (trace_bind_return m k a R) as [-> _].
    now rewrite Hm, Hk', map_app.
  - exists ops. destruct (trace_bind_throw m k e R) as [-> _]. exact Hm.
Qed.

Lemma draws_only_ret {A : Type} (a : A) : draws_only (ret a).
Proof. now exists []. Qed.

Lemma draws_only_ctx (op : surface_op) : draws_only (ctx op).
Proof. now exists [op]. Qed.

Lemma draws_only_get (v : value) (p : string) : draws_only (get v p).
Proof. destruct v; now exists []. Qed.

Lemma draws_only_get2 (v : value) (p q : string) : draws_only (get2 v p q).
Proof.
  apply draws_only_bind; [ apply draws_only_get | intros; apply draws_only_get ].
Qed.

Ltac solve_draws_only :=
  repeat first
    [ apply draws_only_ret | apply draws_only_ctx | apply draws_only_get
    | apply draws_only_get2
    | apply draws_only_bind; [ | intros ? ]
    | match goal with |- draws_only (if ?b then _ else _) => destruct b end ].

(** Every interpretation acquires the handle, and then only draws. *)
Lemma paintCommand_trace_shape (canvas : HTMLCanvasElement) (cmd : value) :
  exists ops,
    trace (paintCommand canvas cmd) = GetContext "2d" :: map Surface ops.
Proof.
  unfold paintCommand.
  match goal with
  | |- exists _, trace (bind (emit ?e) ?k) = _ =>
      assert (draws_only (k tt)) as [ops Hops] by solve_draws_only;
      exists ops;
      destruct (trace_bind_return (emit e) k tt eq_refl) as [-> _];
      cbn [emit trace fst app]; now rewrite <- Hops
  end.
Qed.

Lemma for_each_trace (body : value -> M unit) (commands : list value) :
  trace (for_each commands body) =
  flat_map (fun cmd => trace (body cmd)) (reached body commands).
Proof.
  induction commands as [| cmd rest IH]; [ reflexivity | ].
  cbn [for_each reached flat_map].
  destruct (result (body cmd)) as [[] | e] eqn:R.
  - destruct (trace_bind_return (body cmd) (fun _ => for_each rest body) tt R)
      as [-> _].
    cbn [flat_map]. now rewrite IH.
  - destruct (trace_bind_throw (body cmd) (fun _ => for_each rest body) e R)
      as [-> _].
    cbn [flat_map]. now rewrite app_nil_r.
Qed.

Lemma for_each_all (body : value -> M unit) (commands : list value) :
  Forall (fun cmd => result (body cmd) = Return tt) commands ->
  reached body commands = commands /\
  result (for_each commands body) = Return tt.
Proof.
  induction 1 as [| cmd rest R _ [IHr IHf]]; [ split; reflexivity | ].
  cbn [for_each reached]. rewrite R, IHr. split; [ reflexivity | ].
  destruct (trace_bind_return (body cmd) (fun _ => for_each rest body) tt R)
    as [_ ->].
  exact IHf.
Qed.

(** ** [paintCommand], case by case *)

Lemma paintCommand_rounded_rect_run canvas fields x y w h :
  field fields "kind" = VStr "rounded_rect" ->
  get2 (VObj fields) "pos" "x" = ret x ->
  get2 (VObj fields) "pos" "y" = ret y ->
  get2 (VObj fields) "size" "x" = ret w ->
  get2 (VObj fields) "size" "y" = ret h ->
  let r := field fields "corner_radius" in
  paintCommand canvas (VObj fields) =
  (GetContext "2d" ::
   map Surface
     [SetFillStyle (field fields "fill_style");
      BeginPath;
      MoveTo (js_add x r) y;
      LineTo (js_sub (js_add x w) r) y;
      QuadraticCurveTo (js_add x w) y (js_add x w) (js_add y r);
      LineTo (js_add x w) (js_sub (js_add y h) r);
      QuadraticCurveTo (js_add x w) (js_add y h)
        (js_sub (js_add x w) r) (js_add y h);
      LineTo (js_add x r) (js_add y h);
      QuadraticCurveTo x (js_add y h) x (js_sub (js_add y h) r);
      LineTo x (js_add y r);
      QuadraticCurveTo x y (js_add x r) y;
      ClosePath;
      Fill],
   Return tt).
Proof.
  intros Hk Hx Hy Hw Hh r. unfold paintCommand. cbn [get].
  rewrite Hk, Hx, Hy, Hw, Hh. reflexivity.
Qed.

(** C1, as amended. Interpreting a [clear] command assigns the command's
    [fill_style] to the fill colour and then clears the rectangle from (0, 0)
    of the surface's width and height; these are its only two surface
    operations, so nothing is filled. *)
Theorem paintCommand_clear canvas fields :
  field fields "kind" = VStr "clear" ->
  paintCommand canvas (VObj fields) =
  ([GetContext "2d";
    Surface (SetFillStyle (field fields "fill_style"));
    Surface (ClearRect (VNum 0) (VNum 0)
               (VNum (width canvas)) (VNum (height canvas)))],
   Return tt)
  /\ ~ In Fill (surface_ops (trace (paintCommand canvas (VObj fields)))).
Proof.
  intros Hk.
  assert (paintCommand canvas (VObj fields) =
          ([GetContext "2d";
            Surface (SetFillStyle (field fields "fill_style"));
            Surface (ClearRect (VNum 0) (VNum 0)
                       (VNum (width canvas)) (VNum (height canvas)))],
           Return tt)) as E.
  { unfold paintCommand. cbn [get]. rewrite Hk. reflexivity. }
  split; [ exact E | ].
  rewrite E. cbn. intros [F | [F | []]]; discriminate F.
Qed.

(** C2. A command whose [kind] is none of the five case labels is
    interpreted without any surface operation: the handle is acquired and
    nothing else happens, the surface is as it was, and nothing is thrown. *)
Theorem paintCommand_unrecognized_kind canvas cmd kind :
  get cmd "kind" = ret kind ->
  recognized kind = false ->
  paintCommand canvas cmd = ([GetContext "2d"], Return tt)
  /\ surface_ops (trace (paintCommand canvas cmd)) = []
  /\ (forall (S : Type) (apply : S -> surface_op -> S) (s : S),
        surface_after apply s (trace (paintCommand canvas cmd)) = s).
Proof.
  intros Hk Hr. unfold recognized in Hr.
  repeat (apply orb_false_elim in Hr; destruct Hr as [Hr ?]).
  assert (paintCommand canvas cmd = ([GetContext "2d"], Return tt)) as E.
  { unfold paintCommand. rewrite Hk. cbn.
    repeat match goal with H : strict_equals _ _ = false |- _ =>
      rewrite H; clear H end.
    reflexivity. }
  rewrite E. repeat split.
Qed.

(** C3. Interpreting a [rounded_rect] command sets the fill colour, begins a
    path at the top edge just right of the top-left corner, and traces eight
    pieces clockwise, an edge and then the curve round the next corner, four
    times; each curve has the corner itself as control point and starts and
    ends [corner_radius] away from it along the two edges; the path is then
    closed, where it began, and filled. *)
Theorem paintCommand_rounded_rect canvas fields x y w h :
  field fields "kind" = VStr "rounded_rect" ->
  get2 (VObj fields) "pos" "x" = ret x ->
  get2 (VObj fields) "pos" "y" = ret y ->
  get2 (VObj fields) "size" "x" = ret w ->
  get2 (VObj fields) "size" "y" = ret h ->
  let r := field fields "corner_radius" in
  paintCommand canvas (VObj fields) =
  (GetContext "2d" ::
   map Surface
     [SetFillStyle (field fields "fill_style");
      BeginPath;
      MoveTo (js_add x r) y;
      LineTo (js_sub (js_add x w) r) y;
      QuadraticCurveTo (js_add x w) y (js_add x w) (js_add y r);
      LineTo (js_add x w) (js_sub (js_add y h) r);
      QuadraticCurveTo (js_add x w) (js_add y h)
        (js_sub (js_add x w) r) (js_add y h);
      LineTo (js_add x r) (js_add y h);
      QuadraticCurveTo x (js_add y h) x (js_sub (js_add y h) r);
      LineTo x (js_add y r);
      QuadraticCurveTo x y (js_add x r) y;
      ClosePath;
      Fill],
   Return tt)
  /\ segments None (surface_ops (trace (paintCommand canvas (VObj fields)))) =
     rounded_rect_outline x y w h r
  /\ length (rounded_rect_outline x y w h r) = 8.
Proof.
  intros Hk Hx Hy Hw Hh r.
  pose proof (paintCommand_rounded_rect_run canvas fields x y w h Hk Hx Hy Hw Hh)
    as E.
  cbv zeta in E. fold r in E. rewrite E.
  repeat split.
Qed.

(** The calls a [circle] command makes when each of them returns. *)
Lemma paintCommand_circle_run canvas fields center_x center_y radius :
  field fields "kind" = VStr "circle" ->
  get2 (VObj fields) "center" "x" = ret center_x ->
  get2 (VObj fields) "center" "y" = ret center_y ->
  field fields "radius" = radius ->
  paintCommand canvas (VObj fields) =
  ([GetContext "2d";
    Surface (SetFillStyle (field fields "fill_style"));
    Surface BeginPath;
    Surface (Arc center_x center_y radius
               (VNum 0) (VNum (2 * Math_PI)) false);
    Surface Fill],
   Return tt).
Proof.
  intros Hk Hx Hy Hr. unfold paintCommand. cbn [get].
  rewrite Hk, Hx, Hy, Hr. reflexivity.
Qed.

(** C4, as the code has it. In a browser a [circle] command, its [center]
    and [radius] numbers and its [fill_style] a string, is interpreted as:
    set the fill colour, begin a path, call [arc] round [center] with that
    radius from angle 0 to 2 pi, not anticlockwise; these calls are the same
    whatever the radius. The arc is then filled, unless [center] and
    [radius] are finite and the radius is negative: then the call of [arc]
    throws an IndexSizeError and nothing is filled. *)
Theorem paintCommand_circle to_double_other to_string_other
    canvas fields center_x center_y radius fill_style :
  field fields "kind" = VStr "circle" ->
  get2 (VObj fields) "center" "x" = ret (VNum center_x) ->
  get2 (VObj fields) "center" "y" = ret (VNum center_y) ->
  field fields "radius" = VNum radius ->
  field fields "fill_style" = VStr fill_style ->
  on_browser to_double_other to_string_other
    (paintCommand canvas (VObj fields)) =
  if arc_throws center_x center_y radius 0 (2 * Math_PI)
  then
    ([GetContext "2d";
      Surface (SetFillStyle (VStr fill_style));
      Surface BeginPath;
      Surface (Arc (VNum center_x) (VNum center_y) (VNum radius)
                 (VNum 0) (VNum (2 * Math_PI)) false)],
     Throw IndexSizeError)
  else
    ([GetContext "2d";
      Surface (SetFillStyle (VStr fill_style));
      Surface BeginPath;
      Surface (Arc (VNum center_x) (VNum center_y) (VNum radius)
                 (VNum 0) (VNum (2 * Math_PI)) false);
      Surface Fill],
     Return tt).
Proof.
  intros Hk Hx Hy Hr Hf.
  rewrite (paintCommand_circle_run canvas fields _ _ _ Hk Hx Hy Hr), Hf.
  unfold on_browser. cbn -[arc_throws PrimFloat.mul].
  destruct (arc_throws center_x center_y radius 0 (2 * Math_PI));
    reflexivity.
Qed.

(** C5, as amended. When the logic layer answers the snapshot with a command
    sequence, a frame is: the call of the logic layer with the serialized
    snapshot, and then the interpretations of the commands, one after the
    other in sequence order, as far as the first that throws; all of them,
    each once, when none throws. The driver acquires no drawing handle of
    its own: every interpretation begins by acquiring one and then only
    draws. *)
Theorem paint_gui_in_order canvas mouse_pos answer commands :
  show_gui (JSON_stringify (snapshot canvas mouse_pos)) = Return answer ->
  JSON_parse answer = Return commands ->
  trace (paint_gui canvas mouse_pos) =
    ShowGui (JSON_stringify (snapshot canvas mouse_pos)) ::
    flat_map (fun cmd => trace (paintCommand canvas cmd))
      (reached (paintCommand canvas) commands)
  /\ (Forall (fun cmd => result (paintCommand canvas cmd) = Return tt) commands ->
      reached (paintCommand canvas) commands = commands /\
      result (paint_gui canvas mouse_pos) = Return tt)
  /\ (forall cmd, exists ops,
        trace (paintCommand canvas cmd) = GetContext "2d" :: map Surface ops).
Proof.
  intros Hs Hp.
  assert (rust_gui (snapshot canvas mouse_pos) =
          ([ShowGui (JSON_stringify (snapshot canvas mouse_pos))],
           Return commands)) as Hr.
  { unfold rust_gui. rewrite Hs. cbn. rewrite Hp. reflexivity. }
  unfold paint_gui.
  destruct (trace_bind_return (rust_gui (snapshot canvas mouse_pos))
              (fun cs => for_each cs (paintCommand canvas)) commands)
    as [Ht Ho]; [ now rewrite Hr | ].
  cbv zeta. rewrite Ht, Ho, Hr, for_each_trace. cbn [trace fst app].
  split; [ reflexivity | split ].
  - apply for_each_all.
  - apply paintCommand_trace_shape.
Qed.

(** C6. The local point of a pointer event is its client position minus the
    left and top of the canvas's bounding rectangle; an event at (150, 150)
    over a canvas whose rectangle starts at (50, 50) is at (100, 100). *)
Theorem mouse_pos_from_event_local :
  (forall canvas evt,
     mouse_pos_from_event canvas evt =
     point (clientX evt - left (getBoundingClientRect canvas))
           (clientY evt - top (getBoundingClientRect canvas)))
  /\ (forall w h,
       mouse_pos_from_event
         {| width := w; height := h;
            getBoundingClientRect := {| left := 50; top := 50 |} |}
         {| clientX := 150; clientY := 150 |} =
       VObj [("x", VNum 100); ("y", VNum 100)]).
Proof.
  split; intros; reflexivity.
Qed.

(** Every command of the schema is interpreted without a throw. *)
Lemma schema_command_returns canvas (c : Schema.Command) :
  result (paintCommand canvas (Schema.serialize_command c)) = Return tt.
Proof.
  destruct c; reflexivity.
Qed.

(** The object [paint_gui] hands to the logic layer is the serialized
    snapshot of the pointer position and the canvas size. *)
Lemma snapshot_serialized canvas (p : Schema.Point) :
  snapshot canvas (Schema.serialize_point p) =
  Schema.serialize_snapshot
    {| Schema.mouse_pos := p;
       Schema.screen_size :=
         {| Schema.px := width canvas; Schema.py := height canvas |} |}.
Proof. reflexivity. Qed.

Lemma deserialize_serialize_point (p : Schema.Point) :
  Schema.deserialize_point (Schema.serialize_point p) = Some p.
Proof. destruct p; reflexivity. Qed.

Lemma deserialize_serialize_command (c : Schema.Command) :
  Schema.deserialize_command (Schema.serialize_command c) = Some c.
Proof.
  destruct c as [f | [] [] lw ss | [] r f | [] [] r f | [] t fo f []];
    reflexivity.
Qed.

(** C7. Serializing an Input Snapshot, or a sequence of Commands, field for
    field and deserializing the result gives back the value that was
    serialized; so for the snapshot with the pointer at (12, 34) on a surface
    of 800 by 600. *)
Theorem serialization_round_trip :
  (forall i : Schema.InputSnapshot,
     Schema.deserialize_snapshot (Schema.serialize_snapshot i) = Some i)
  /\ (forall cs : list Schema.Command,
       Schema.deserialize_commands (map Schema.serialize_command cs) = Some cs)
  /\ Schema.deserialize_snapshot
       (VObj [("mouse_pos", point 12 34); ("screen_size", point 800 600)]) =
     Some {| Schema.mouse_pos := {| Schema.px := 12; Schema.py := 34 |};
             Schema.screen_size := {| Schema.px := 800; Schema.py := 600 |} |}.
Proof.
  split; [ | split; [ | reflexivity ] ].
  - intros [[] []]. reflexivity.
  - induction cs as [| c cs IH]; [ reflexivity | ].
    cbn [map Schema.deserialize_commands].
    now rewrite deserialize_serialize_command, IH.
Qed.

(** C8. When the call of the logic layer throws, [paint_gui] throws the same
    exception to its caller, and the frame consists of that call alone: no
    handle is acquired, no command is interpreted, no surface operation is
    issued, and the surface is as the frame before left it. *)
Theorem paint_gui_logic_failure canvas mouse_pos e :
  result (rust_gui (snapshot canvas mouse_pos)) = Throw e ->
  paint_gui canvas mouse_pos =
    ([ShowGui (JSON_stringify (snapshot canvas mouse_pos))], Throw e)
  /\ surface_ops (trace (paint_gui canvas mouse_pos)) = []
  /\ ~ In (GetContext "2d") (trace (paint_gui canvas mouse_pos))
  /\ (forall (S : Type) (apply : S -> surface_op -> S) (s : S),
        surface_after apply s (trace (paint_gui canvas mouse_pos)) = s).
Proof.
  intros Hr.
  assert (paint_gui canvas mouse_pos =
          ([ShowGui (JSON_stringify (snapshot canvas mouse_pos))], Throw e))
    as E.
  { unfold paint_gui. cbv zeta.
    destruct (trace_bind_throw (rust_gui (snapshot canvas mouse_pos))
                (fun cs => for_each cs (paintCommand canvas)) e Hr)
      as [Ht Ho].
    rewrite (surjective_pairing (bind _ _)).
    unfold trace, result in Ht, Ho. rewrite Ht, Ho. f_equal.
    unfold rust_gui. cbn.
    destruct (show_gui _); [ destruct (JSON_parse _) | ]; reflexivity. }
  rewrite E. repeat split.
  cbn. intros [F | []]. discriminate F.
Qed.

(** C9. A [rounded_rect] command whose [corner_radius] is zero traces the
    rectangle from [pos] to [pos + size]: piece for piece its outline is that
    rectangle's, every curve starting and ending at the corner that is its
    control point. Two coordinates are the same when they are the same
    number. *)
Theorem rounded_rect_zero_radius canvas fields x y w h r :
  field fields "kind" = VStr "rounded_rect" ->
  get2 (VObj fields) "pos" "x" = ret (VNum x) ->
  get2 (VObj fields) "pos" "y" = ret (VNum y) ->
  get2 (VObj fields) "size" "x" = ret (VNum w) ->
  get2 (VObj fields) "size" "y" = ret (VNum h) ->
  field fields "corner_radius" = VNum r ->
  is_zero r ->
  same_outline
    (segments None (surface_ops (trace (paintCommand canvas (VObj fields)))))
    (rectangle_outline x y w h) = true.
Proof.
  intros Hk Hx Hy Hw Hh Hr Hz.
  pose proof (paintCommand_rounded_rect_run canvas fields _ _ _ _ Hk Hx Hy Hw Hh)
    as E.
  cbv zeta in E. rewrite Hr in E. rewrite E.
  cbn -[PrimFloat.add PrimFloat.sub same_number].
  unfold same_point. cbn [same_value fst snd].
  rewrite !(add_zero _ r Hz), !(sub_zero _ r Hz), !same_number_refl.
  reflexivity.
Qed.

(** C10. The interpretation of a command whose [kind] is not [clear] is the
    same on any two canvases, whatever their widths and heights. *)
Theorem paintCommand_same_on_any_canvas canvas canvas' cmd :
  has_kind cmd "clear" = false ->
  paintCommand canvas cmd = paintCommand canvas' cmd.
Proof.
  intros Hk. unfold paintCommand.
  destruct cmd; try reflexivity.
  cbn [has_kind] in Hk. cbn [get].
  rewrite !bind_emit, !bind_ret, Hk. reflexivity.
Qed.

(** * More of the front end *)

(** ** The other cases of [paintCommand] *)

(** A [line] command: begin a path, set the stroke width and colour, move to
    [from], a line to [to], stroke; the path is the one edge. *)
Theorem paintCommand_line canvas fields from_x from_y to_x to_y :
  field fields "kind" = VStr "line" ->
  get2 (VObj fields) "from" "x" = ret from_x ->
  get2 (VObj fields) "from" "y" = ret from_y ->
  get2 (VObj fields) "to" "x" = ret to_x ->
  get2 (VObj fields) "to" "y" = ret to_y ->
  paintCommand canvas (VObj fields) =
  ([GetContext "2d";
    Surface BeginPath;
    Surface (SetLineWidth (field fields "line_width"));
    Surface (SetStrokeStyle (field fields "stroke_style"));
    Surface (MoveTo from_x from_y);
    Surface (LineTo to_x to_y);
    Surface Stroke],
   Return tt)
  /\ segments None (surface_ops (trace (paintCommand canvas (VObj fields)))) =
     [Edge (from_x, from_y) (to_x, to_y)].
Proof.
  intros Hk Hfx Hfy Htx Hty.
  assert (paintCommand canvas (VObj fields) =
          ([GetContext "2d";
            Surface BeginPath;
            Surface (SetLineWidth (field fields "line_width"));
            Surface (SetStrokeStyle (field fields "stroke_style"));
            Surface (MoveTo from_x from_y);
            Surface (LineTo to_x to_y);
            Surface Stroke],
           Return tt)) as E.
  { unfold paintCommand. cbn [get]. rewrite Hk, Hfx, Hfy, Htx, Hty.
    reflexivity. }
  rewrite E. split; reflexivity.
Qed.

(** A [text] command: set the font, the fill colour and the alignment, then
    fill the text at [pos]. *)
Theorem paintCommand_text canvas fields pos_x pos_y :
  field fields "kind" = VStr "text" ->
  get2 (VObj fields) "pos" "x" = ret pos_x ->
  get2 (VObj fields) "pos" "y" = ret pos_y ->
  paintCommand canvas (VObj fields) =
  ([GetContext "2d";
    Surface (SetFont (field fields "font"));
    Surface (SetFillStyle (field fields "fill_style"));
    Surface (SetTextAlign (field fields "text_align"));
    Surface (FillText (field fields "text") pos_x pos_y)],
   Return tt).
Proof.
  intros Hk Hx Hy. unfold paintCommand. cbn [get]. rewrite Hk, Hx, Hy.
  reflexivity.
Qed.

(** ** When [paintCommand] throws, and what it has done by then *)

Lemma strict_equals_true (v : value) (s : string) :
  strict_equals v s = true -> v = VStr s.
Proof.
  destruct v; try discriminate. cbn. intros H.
  apply String.eqb_eq in H. now subst.
Qed.

(** Case analysis on the command: on which case of the [switch] it takes,
    and on the values whose properties that case reads. *)
Ltac by_kind fields :=
  let K := fresh "K" in
  destruct (strict_equals (field fields "kind") "clear") eqn:K;
    [ apply strict_equals_true in K
    | clear K; destruct (strict_equals (field fields "kind") "line") eqn:K;
      [ apply strict_equals_true in K
      | clear K; destruct (strict_equals (field fields "kind") "circle") eqn:K;
        [ apply strict_equals_true in K
        | clear K;
          destruct (strict_equals (field fields "kind") "rounded_rect") eqn:K;
          [ apply strict_equals_true in K
          | clear K;
            destruct (strict_equals (field fields "kind") "text") eqn:K;
            [ apply strict_equals_true in K | ] ] ] ] ].

Ltac by_points fields :=
  repeat match goal with
  | |- context [ field fields ?p ] =>
      lazymatch p with
      | "from" => idtac | "to" => idtac | "center" => idtac
      | "pos" => idtac | "size" => idtac
      end;
      let v := fresh "v" in
      remember (field fields p) as v; destruct v
  end.




(** An interpretation changes pixels at most once, by the last operation it
    issues, and not at all when it throws: what it has done by then is to
    begin a path or to set styles. *)
Theorem paintCommand_paints_last canvas cmd :
  let ops := surface_ops (trace (paintCommand canvas cmd)) in
  forallb (fun op => negb (paints op)) (removelast ops) = true
  /\ (reads_nullish cmd = true ->
      forallb (fun op => negb (paints op)) ops = true).
Proof.
  destruct cmd; try (split; reflexivity).
  unfold paintCommand, reads_nullish, get2. cbn [get]. rewrite bind_emit, bind_ret.
  cbn [trace fst surface_ops surface_op_of].
  by_kind fields; rewrite ?K; cbn [strict_equals String.eqb Ascii.eqb Bool.eqb].
  all: try (split; [ reflexivity | discriminate ]).
  all: by_points fields; split; try reflexivity; discriminate.
Qed.

(** The surface is cleared by a [clear] command only, and then all of it. *)
Theorem paintCommand_clears_only_on_clear canvas cmd x y w h :
  In (ClearRect x y w h) (surface_ops (trace (paintCommand canvas cmd))) ->
  has_kind cmd "clear" = true
  /\ ClearRect x y w h =
     ClearRect (VNum 0) (VNum 0) (VNum (width canvas)) (VNum (height canvas)).
Proof.
  clear JSON_stringify show_gui JSON_parse.
  destruct cmd; try (cbn; tauto).
  unfold paintCommand, has_kind, get2. cbn [get]. rewrite bind_emit, bind_ret.
  cbn [trace fst surface_ops surface_op_of].
  by_kind fields; rewrite ?K; cbn [strict_equals String.eqb Ascii.eqb Bool.eqb].
  all: try (cbn; tauto).
  - cbn. intros [F | [F | []]]; [ discriminate F | ]. split; congruence.
  - by_points fields; cbn; intuition discriminate.
  - by_points fields; cbn; intuition discriminate.
  - by_points fields; cbn; intuition discriminate.
  - by_points fields; cbn; intuition discriminate.
Qed.

(** ** What an interpretation depends on *)

(** Two objects with the same values under the fourteen names [paintCommand]
    reads are interpreted alike: any other property of a command is
    ignored. *)
Theorem paintCommand_reads_only canvas fields fields' :
  (forall p, In p read_names -> field fields p = field fields' p) ->
  paintCommand canvas (VObj fields) = paintCommand canvas (VObj fields').
Proof.
  intros H. unfold paintCommand, get2. cbn [get].
  rewrite !(H "kind"), !(H "fill_style"), !(H "line_width"),
    !(H "stroke_style"), !(H "from"), !(H "to"), !(H "center"),
    !(H "radius"), !(H "pos"), !(H "size"), !(H "corner_radius"),
    !(H "font"), !(H "text_align"), !(H "text")
    by (cbn; tauto).
  reflexivity.
Qed.

Lemma for_each_ext (body body' : value -> M unit) (commands : list value) :
  (forall cmd, body cmd = body' cmd) ->
  for_each commands body = for_each commands body'.
Proof.
  intros H. induction commands as [| cmd rest IH]; [ reflexivity | ].
  cbn [for_each]. rewrite H, IH. reflexivity.
Qed.

(** A frame depends on the canvas through its width and height only: the
    bounding rectangle of the canvas is not read by [paint_gui]. *)
Theorem paint_gui_canvas_size_only canvas canvas' mouse_pos :
  width canvas = width canvas' ->
  height canvas = height canvas' ->
  paint_gui canvas mouse_pos = paint_gui canvas' mouse_pos.
Proof.
  intros Hw Hh. unfold paint_gui, snapshot. cbv zeta. rewrite Hw, Hh.
  destruct (rust_gui _) as [t [commands | e]]; [ | reflexivity ].
  cbn [bind].
  rewrite (for_each_ext (paintCommand canvas) (paintCommand canvas')).
  - reflexivity.
  - intros cmd. unfold paintCommand. now rewrite Hw, Hh.
Qed.

(** ** Frames *)

Lemma for_each_app_throw (body : value -> M unit)
    (before after : list value) (bad : value) (e : exn) :
  Forall (fun cmd => result (body cmd) = Return tt) before ->
  result (body bad) = Throw e ->
  trace (for_each (before ++ bad :: after) body) =
    (flat_map (fun cmd => trace (body cmd)) before ++ trace (body bad))%list
  /\ result (for_each (before ++ bad :: after) body) = Throw e.
Proof.
  intros Hb He. induction Hb as [| cmd rest R _ [IHt IHr]].
  - cbn [app for_each flat_map].
    exact (trace_bind_throw (body bad) (fun _ => for_each after body) e He).
  - cbn [app for_each flat_map].
    destruct (trace_bind_return (body cmd)
                (fun _ => for_each (rest ++ bad :: after) body) tt R)
      as [-> ->].
    rewrite IHt, <- app_assoc. split; [ reflexivity | exact IHr ].
Qed.

(** A frame is cut short by the first command whose interpretation throws:
    the commands before it are drawn, what that command did before throwing
    stays done, no later command is interpreted, and [paint_gui] throws the
    same exception. *)
Theorem paint_gui_cut_short canvas mouse_pos answer before bad after e :
  show_gui (JSON_stringify (snapshot canvas mouse_pos)) = Return answer ->
  JSON_parse answer = Return (before ++ bad :: after)%list ->
  Forall (fun cmd => result (paintCommand canvas cmd) = Return tt) before ->
  result (paintCommand canvas bad) = Throw e ->
  trace (paint_gui canvas mouse_pos) =
    ShowGui (JSON_stringify (snapshot canvas mouse_pos)) ::
    (flat_map (fun cmd => trace (paintCommand canvas cmd)) before
     ++ trace (paintCommand canvas bad))%list
  /\ result (paint_gui canvas mouse_pos) = Throw e.
Proof.
  intros Hs Hp Hb He.
  assert (rust_gui (snapshot canvas mouse_pos) =
          ([ShowGui (JSON_stringify (snapshot canvas mouse_pos))],
           Return (before ++ bad :: after)%list)) as Hr.
  { unfold rust_gui. rewrite Hs. cbn. rewrite Hp. reflexivity. }
  unfold paint_gui. cbv zeta.
  destruct (trace_bind_return (rust_gui (snapshot canvas mouse_pos))
              (fun cs => for_each cs (paintCommand canvas))
              (before ++ bad :: after)%list)
    as [Ht Ho]; [ now rewrite Hr | ].
  destruct (for_each_app_throw (paintCommand canvas) before after bad e Hb He)
    as [Ft Fr].
  rewrite Ht, Ho, Hr, Ft, Fr. split; reflexivity.
Qed.

Lemma for_each_app (body : value -> M unit) (l l' : list value) :
  for_each (l ++ l') body = bind (for_each l body) (fun _ => for_each l' body).
Proof.
  induction l as [| cmd rest IH].
  - cbn [app for_each]. now rewrite bind_ret.
  - cbn [app for_each]. rewrite IH.
    destruct (body cmd) as [t [[] | e]]; [ | reflexivity ].
    cbn [bind]. destruct (for_each rest body) as [t' [[] | e']].
    + cbn [bind]. destruct (for_each l' body) as [t'' o''].
      now rewrite app_assoc.
    + reflexivity.
Qed.

(** A command of an unrecognized [kind] is skipped: with it or without it
    in the sequence, the loop of [paint_gui] issues the same surface
    operations and ends the same way. *)
Theorem unrecognized_command_skipped canvas before skipped after kind :
  get skipped "kind" = ret kind ->
  recognized kind = false ->
  surface_ops
    (trace (for_each (before ++ skipped :: after) (paintCommand canvas))) =
  surface_ops (trace (for_each (before ++ after) (paintCommand canvas)))
  /\ result (for_each (before ++ skipped :: after) (paintCommand canvas)) =
     result (for_each (before ++ after) (paintCommand canvas)).
Proof.
  intros Hk Hr.
  assert (paintCommand canvas skipped = ([GetContext "2d"], Return tt)) as E.
  { unfold recognized in Hr.
    repeat (apply orb_false_elim in Hr; destruct Hr as [Hr ?]).
    unfold paintCommand. rewrite Hk, bind_emit, bind_ret.
    repeat match goal with H : strict_equals _ _ = false |- _ =>
      rewrite H; clear H end.
    reflexivity. }
  rewrite !for_each_app. cbn [for_each]. rewrite E.
  destruct (for_each before (paintCommand canvas)) as [t [[] | e]];
    [ | split; reflexivity ].
  cbn [bind]. destruct (for_each after (paintCommand canvas)) as [t' o'].
  cbn [app trace result fst snd].
  split; [ | reflexivity ].
  induction t as [| ev t IH]; [ reflexivity | ].
  cbn. now rewrite IH.
Qed.

Lemma logic_calls_app (t t' : list event) :
  logic_calls (t ++ t') = logic_calls t + logic_calls t'.
Proof.
  induction t as [| [] t IH]; cbn; now rewrite ?IH.
Qed.

Lemma logic_calls_surface (ops : list surface_op) :
  logic_calls (map Surface ops) = 0.
Proof. induction ops; [ reflexivity | exact IHops ]. Qed.

Lemma logic_calls_for_each canvas (commands : list value) :
  logic_calls (trace (for_each commands (paintCommand canvas))) = 0.
Proof.
  rewrite for_each_trace.
  induction (reached (paintCommand canvas) commands) as [| cmd rest IH];
    [ reflexivity | ].
  cbn [flat_map]. rewrite logic_calls_app, IH.
  destruct (paintCommand_trace_shape canvas cmd) as [ops ->].
  cbn. now rewrite logic_calls_surface.
Qed.

(** Every frame calls the logic layer exactly once, before anything else and
    with the serialized snapshot, whatever the logic layer answers and
    whatever the commands do. *)
Theorem paint_gui_one_logic_call canvas mouse_pos :
  exists rest,
    trace (paint_gui canvas mouse_pos) =
      ShowGui (JSON_stringify (snapshot canvas mouse_pos)) :: rest
    /\ logic_calls rest = 0
    /\ logic_calls (trace (paint_gui canvas mouse_pos)) = 1.
Proof.
  unfold paint_gui. cbv zeta.
  assert (trace (rust_gui (snapshot canvas mouse_pos)) =
          [ShowGui (JSON_stringify (snapshot canvas mouse_pos))]) as Hr.
  { unfold rust_gui. cbn.
    destruct (show_gui _); [ destruct (JSON_parse _) | ]; reflexivity. }
  destruct (result (rust_gui (snapshot canvas mouse_pos)))
    as [commands | e] eqn:R.
  - destruct (trace_bind_return (rust_gui (snapshot canvas mouse_pos))
                (fun cs => for_each cs (paintCommand canvas)) commands R)
      as [-> _].
    rewrite Hr. cbn [app].
    exists (trace (for_each commands (paintCommand canvas))).
    pose proof (logic_calls_for_each canvas commands) as H0.
    repeat split; [ exact H0 | cbn; now rewrite H0 ].
  - destruct (trace_bind_throw (rust_gui (snapshot canvas mouse_pos))
                (fun cs => for_each cs (paintCommand canvas)) e R)
      as [-> _].
    rewrite Hr. exists []. repeat split.
Qed.

(** ** [js_gui] *)

(** The commands of [js_gui] are not written the way [paintCommand] reads
    them: their colour is under [fillStyle] and the radius under [radius],
    so both are interpreted without a throw, with [undefined] as the fill
    colour, and the rectangle with [undefined] as its corner radius. *)
Theorem js_gui_misread input canvas :
  Forall
    (fun cmd =>
       result (paintCommand canvas cmd) = Return tt
       /\ (forall v,
             In (SetFillStyle v) (surface_ops (trace (paintCommand canvas cmd))) ->
             v = VUndefined))
    (js_gui input)
  /\ (exists clear rect,
        js_gui input = [clear; rect]
        /\ has_kind clear "clear" = true
        /\ segments None (surface_ops (trace (paintCommand canvas rect))) =
           rounded_rect_outline
             (VNum 100) (VNum 100) (VNum 200) (VNum 100) VUndefined).
Proof.
  split.
  - unfold js_gui. repeat constructor.
    + cbn. intros v [F | [F | []]]; [ congruence | discriminate F ].
    + cbn. intros v H.
      repeat (destruct H as [H | H]; [ congruence || discriminate H | ]).
      destruct H.
  - eexists _, _. repeat split.
Qed.

(** ** The pointer position *)

Lemma sub_self (a : float) :
  PrimFloat.is_finite a = true -> (a - a = 0)%float.
Proof.
  intros Hf.
  destruct (float_cases a) as [[s ->] | [[s ->] | [-> | (s & m & e & E)]]].
  - destruct s; reflexivity.
  - destruct s; discriminate Hf.
  - discriminate Hf.
  - apply Prim2SF_inj. rewrite FloatAxioms.sub_spec, E.
    unfold SF64sub, SFsub, shl_align.
    rewrite Z.min_id, !Z.sub_diag. reflexivity.
Qed.

(** A pointer exactly at the top-left corner of the canvas's bounding
    rectangle is at the local point (0, 0), when the coordinates are
    finite. *)
Theorem mouse_pos_at_canvas_origin canvas evt :
  clientX evt = left (getBoundingClientRect canvas) ->
  clientY evt = top (getBoundingClientRect canvas) ->
  PrimFloat.is_finite (clientX evt) = true ->
  PrimFloat.is_finite (clientY evt) = true ->
  mouse_pos_from_event canvas evt = point 0 0.
Proof.
  intros Hx Hy Fx Fy. unfold mouse_pos_from_event. cbv zeta.
  rewrite <- Hx, <- Hy, (sub_self _ Fx), (sub_self _ Fy). reflexivity.
Qed.

(** For a canvas whose bounding rectangle starts at the origin of the
    viewport, the local point is the client position of the event. *)
Theorem mouse_pos_canvas_at_origin canvas evt :
  is_zero (left (getBoundingClientRect canvas)) ->
  is_zero (top (getBoundingClientRect canvas)) ->
  exists x y,
    mouse_pos_from_event canvas evt = point x y
    /\ same_number x (clientX evt) = true
    /\ same_number y (clientY evt) = true.
Proof.
  intros Hl Ht. eexists _, _. split; [ reflexivity | ].
  split; now apply sub_zero.
Qed.

Lemma paint_gui_trace_head canvas mouse_pos :
  exists rest,
    trace (paint_gui canvas mouse_pos) =
    ShowGui (JSON_stringify (snapshot canvas mouse_pos)) :: rest.
Proof.
  unfold paint_gui, rust_gui. cbv zeta. rewrite bind_emit.
  destruct (show_gui _) as [answer | e].
  - cbn. destruct (JSON_parse answer) as [commands | e].
    + cbn. destruct (for_each commands _). now eexists.
    + now eexists.
  - now eexists.
Qed.

(** On a pointer event the logic layer is asked with the pointer's position
    local to the canvas and the canvas's width and height, serialized. *)
Theorem on_mouse_request canvas evt :
  exists rest,
    trace (on_mouse canvas evt) =
    ShowGui
      (JSON_stringify
         (VObj [("mouse_pos",
                 point (clientX evt - left (getBoundingClientRect canvas))
                       (clientY evt - top (getBoundingClientRect canvas)));
                ("screen_size", point (width canvas) (height canvas))]))
    :: rest.
Proof.
  unfold on_mouse. cbv zeta.
  exact (paint_gui_trace_head canvas (mouse_pos_from_event canvas evt)).
Qed.

(** ** The page *)

Lemma frame_events_frames (t : list event) (tail : list page_event) :
  frame_events (map Frame t ++ tail) = (t ++ frame_events tail)%list.
Proof.
  induction t as [| ev t IH]; [ reflexivity | ].
  cbn. now rewrite IH.
Qed.

(** Nothing is painted and no listener is added unless the module has
    loaded and the document has the canvas. *)
Theorem start_paints_only_when_ready loaded element :
  frame_events (log (start loaded element)) <> []
  \/ listeners (start loaded element) <> [] ->
  loaded = Return tt /\ exists canvas, element = Some canvas.
Proof.
  destruct loaded as [[] | e], element as [canvas | ].
  - intros _. split; [ reflexivity | now exists canvas ].
  - cbn. intros [H | H]; now destruct H.
  - cbn. intros [H | H]; now destruct H.
  - cbn. intros [H | H]; now destruct H.
Qed.

(** When the page starts, one frame is painted, with the pointer at (0, 0);
    if it throws, the exception goes to [console.error], last in the log. *)
Theorem start_first_frame canvas :
  let page := start (Return tt) (Some canvas) in
  let first := paint_gui canvas (point 0 0) in
  frame_events (log page) = trace first
  /\ (forall e, result first = Throw e ->
        exists before, log page = (before ++ [ConsoleError e])%list)
  /\ (result first = Return tt ->
        forall e, ~ In (ConsoleError e) (log page)).
Proof.
  cbv zeta. unfold start, wasm_loaded, initialize.
  destruct (result (paint_gui canvas (point 0 0))) as [[] | e0] eqn:R;
    cbn [log listeners frame_events frame_event_of app].
  - split; [ | split ].
    + rewrite <- (app_nil_r (map Frame _)), frame_events_frames.
      cbn. now rewrite app_nil_r.
    + discriminate.
    + intros _ e H. cbn in H.
      repeat (destruct H as [H | H]; [ discriminate H | ]).
      apply in_map_iff in H. destruct H as (ev & F & _). discriminate F.
  - split; [ | split ].
    + rewrite frame_events_frames. cbn. now rewrite app_nil_r.
    + intros e [= <-].
      eexists. rewrite !app_comm_cons. reflexivity.
    + discriminate.
Qed.

(** After the page has started, whatever the first frame did, a mousemove or
    a mousedown causes one call of [paint_gui], with the pointer's local
    position; an event of any other type causes none. *)
Theorem start_then_dispatch canvas type evt :
  dispatch (listeners (start (Return tt) (Some canvas))) type evt =
  if String.eqb type "mousemove" || String.eqb type "mousedown"
  then [paint_gui canvas (mouse_pos_from_event canvas evt)]
  else [].
Proof.
  assert (listeners (start (Return tt) (Some canvas)) =
          [("mousemove", on_mouse canvas); ("mousedown", on_mouse canvas)])
    as ->.
  { unfold start, wasm_loaded, initialize.
    destruct (result (paint_gui canvas (point 0 0))); reflexivity. }
  unfold dispatch. cbn [filter fst].
  rewrite (String.eqb_sym "mousemove" type), (String.eqb_sym "mousedown" type).
  destruct (String.eqb_spec type "mousemove") as [-> | _]; [ reflexivity | ].
  destruct (String.eqb type "mousedown"); reflexivity.
Qed.

End Frontend.

(** * The properties on the sample inputs *)

Lemma paintCommand_clear_example :
  field [("kind", VStr "clear"); ("fill_style", VStr "#111111")] "kind" =
    VStr "clear"
  /\ paintCommand to_NaN to_NaN canvas_800x600 clear_command =
     ([GetContext "2d";
       Surface (SetFillStyle (VStr "#111111"));
       Surface (ClearRect (VNum 0) (VNum 0) (VNum 800) (VNum 600))],
      Return tt).
Proof.
  split; [ reflexivity | ].
  apply (paintCommand_clear to_NaN to_NaN canvas_800x600
           [("kind", VStr "clear"); ("fill_style", VStr "#111111")]).
  reflexivity.
Defined.

(** On the sample [clear] command the fill colour is set before the
    rectangle is cleared: the clear-rect is not the only surface operation. *)
Lemma clear_sets_fill_style :
  ~ only_clears to_NaN to_NaN canvas_800x600 clear_command.
Proof.
  unfold only_clears. cbn. discriminate.
Qed.

Lemma paintCommand_triangle_example :
  get triangle_command "kind" = ret (VStr "triangle")
  /\ recognized (VStr "triangle") = false
  /\ paintCommand to_NaN to_NaN canvas_800x600 triangle_command =
     ([GetContext "2d"], Return tt).
Proof.
  split; [ reflexivity | split; [ reflexivity | ] ].
  apply (paintCommand_unrecognized_kind to_NaN to_NaN canvas_800x600
           triangle_command (VStr "triangle")); reflexivity.
Defined.

Lemma paintCommand_rounded_rect_example :
  segments None
    (surface_ops
       (trace (paintCommand to_NaN to_NaN canvas_800x600 rounded_rect_command))) =
  rounded_rect_outline to_NaN to_NaN
    (VNum 100) (VNum 100) (VNum 200) (VNum 100) (VNum 20).
Proof.
  apply (paintCommand_rounded_rect to_NaN to_NaN canvas_800x600
           [("kind", VStr "rounded_rect"); ("fill_style", VStr "#ff1111");
            ("pos", point 100 100); ("size", point 200 100);
            ("corner_radius", VNum 20)]
           (VNum 100) (VNum 100) (VNum 200) (VNum 100)); reflexivity.
Defined.

Lemma paintCommand_circle_example :
  on_browser to_double_stub to_string_stub
    (paintCommand to_NaN to_NaN canvas_800x600 circle_command) =
  ([GetContext "2d";
    Surface (SetFillStyle (VStr "#00ff00"));
    Surface BeginPath;
    Surface (Arc (VNum 40) (VNum 30) (VNum 5)
               (VNum 0) (VNum (2 * Math_PI)) false);
    Surface Fill],
   Return tt).
Proof.
  apply (paintCommand_circle to_NaN to_NaN to_double_stub to_string_stub
           canvas_800x600
           [("kind", VStr "circle"); ("fill_style", VStr "#00ff00");
            ("center", point 40 30); ("radius", VNum 5)]
           40 30 5 "#00ff00"); reflexivity.
Defined.

(** On the circle of radius -5 the call of [arc] throws: [fill] is not
    reached. *)
Lemma negative_radius_not_filled :
  ~ fill_reached to_NaN to_NaN to_double_stub to_string_stub
      canvas_800x600 negative_circle_command.
Proof.
  unfold fill_reached. cbn.
  intros H. repeat (destruct H as [H | H]; [ discriminate H | ]).
  destruct H.
Qed.

Lemma paint_gui_two_commands :
  trace (paint_gui to_NaN to_NaN stringify_stub logic_ok
           (parse_as [clear_command; rounded_rect_command])
           canvas_800x600 (point 0 0)) =
  ShowGui "snapshot" ::
  flat_map (fun cmd => trace (paintCommand to_NaN to_NaN canvas_800x600 cmd))
    (reached (paintCommand to_NaN to_NaN canvas_800x600)
       [clear_command; rounded_rect_command]).
Proof.
  apply (paint_gui_in_order to_NaN to_NaN stringify_stub logic_ok
           (parse_as [clear_command; rounded_rect_command])
           canvas_800x600 (point 0 0) "commands"
           [clear_command; rounded_rect_command]); reflexivity.
Defined.

(** A frame whose command sequence is empty: the logic layer is called and
    no drawing handle is acquired. *)
Lemma empty_frame_acquires_no_handle :
  ~ acquires_handle to_NaN to_NaN stringify_stub logic_ok (parse_as [])
      canvas_800x600 (point 0 0).
Proof.
  unfold acquires_handle. cbn. intros [F | []]. discriminate F.
Qed.

Lemma paint_gui_logic_failure_example :
  result (rust_gui stringify_stub logic_fails (parse_as [clear_command])
            (snapshot canvas_800x600 (point 0 0))) =
    Throw (HostError "unreachable")
  /\ paint_gui to_NaN to_NaN stringify_stub logic_fails
       (parse_as [clear_command]) canvas_800x600 (point 0 0) =
     ([ShowGui "snapshot"], Throw (HostError "unreachable")).
Proof.
  split; [ reflexivity | ].
  apply (paint_gui_logic_failure to_NaN to_NaN stringify_stub logic_fails
           (parse_as [clear_command]) canvas_800x600 (point 0 0)
           (HostError "unreachable")).
  reflexivity.
Defined.

Lemma sharp_rect_is_a_rectangle :
  is_zero 0
  /\ same_outline
       (segments None
          (surface_ops
             (trace (paintCommand to_NaN to_NaN canvas_800x600
                       sharp_rect_command))))
       (rectangle_outline 100 100 200 100) = true.
Proof.
  split; [ reflexivity | ].
  apply (rounded_rect_zero_radius to_NaN to_NaN canvas_800x600
           [("kind", VStr "rounded_rect"); ("fill_style", VStr "#ff1111");
            ("pos", point 100 100); ("size", point 200 100);
            ("corner_radius", VNum 0)]
           100 100 200 100 0); reflexivity.
Defined.

Lemma rounded_rect_same_on_two_canvases :
  has_kind rounded_rect_command "clear" = false
  /\ paintCommand to_NaN to_NaN canvas_800x600 rounded_rect_command =
     paintCommand to_NaN to_NaN canvas_320x200 rounded_rect_command.
Proof.
  split; [ reflexivity | ].
  apply (paintCommand_same_on_any_canvas to_NaN to_NaN
           canvas_800x600 canvas_320x200 rounded_rect_command).
  reflexivity.
Defined.

Lemma paintCommand_line_example :
  segments None
    (surface_ops
       (trace (paintCommand to_NaN to_NaN canvas_800x600 line_command))) =
  [Edge (VNum 10, VNum 20) (VNum 30, VNum 40)].
Proof.
  apply (paintCommand_line to_NaN to_NaN canvas_800x600
           [("kind", VStr "line"); ("from", point 10 20); ("to", point 30 40);
            ("line_width", VNum 2); ("stroke_style", VStr "#ffffff")]
           (VNum 10) (VNum 20) (VNum 30) (VNum 40)); reflexivity.
Defined.

Lemma paintCommand_text_example :
  paintCommand to_NaN to_NaN canvas_800x600 text_command =
  ([GetContext "2d";
    Surface (SetFont (VStr "14px sans-serif"));
    Surface (SetFillStyle (VStr "#ffffff"));
    Surface (SetTextAlign (VStr "left"));
    Surface (FillText (VStr "Hello") (VNum 10) (VNum 20))],
   Return tt).
Proof.
  apply (paintCommand_text to_NaN to_NaN canvas_800x600
           [("kind", VStr "text"); ("pos", point 10 20);
            ("text", VStr "Hello"); ("font", VStr "14px sans-serif");
            ("fill_style", VStr "#ffffff"); ("text_align", VStr "left")]
           (VNum 10) (VNum 20)); reflexivity.
Defined.

Lemma clear_command_clears :
  In (ClearRect (VNum 0) (VNum 0) (VNum 800) (VNum 600))
    (surface_ops
       (trace (paintCommand to_NaN to_NaN canvas_800x600 clear_command)))
  /\ has_kind clear_command "clear" = true.
Proof.
  assert (In (ClearRect (VNum 0) (VNum 0) (VNum 800) (VNum 600))
            (surface_ops
               (trace (paintCommand to_NaN to_NaN canvas_800x600
                         clear_command)))) as H
    by (cbn; tauto).
  split; [ exact H | ].
  exact (proj1 (paintCommand_clears_only_on_clear to_NaN to_NaN
                  canvas_800x600 clear_command _ _ _ _ H)).
Defined.

Lemma extra_property_ignored :
  paintCommand to_NaN to_NaN canvas_800x600
    (VObj [("z_index", VNum 3); ("kind", VStr "clear");
           ("fill_style", VStr "#111111")]) =
  paintCommand to_NaN to_NaN canvas_800x600 clear_command.
Proof.
  apply (paintCommand_reads_only to_NaN to_NaN canvas_800x600
           [("z_index", VNum 3); ("kind", VStr "clear");
            ("fill_style", VStr "#111111")]
           [("kind", VStr "clear"); ("fill_style", VStr "#111111")]).
  intros p Hp. cbn in Hp.
  repeat (destruct Hp as [<- | Hp]; [ reflexivity | ]).
  destruct Hp.
Defined.

Lemma frame_same_on_moved_canvas :
  paint_gui to_NaN to_NaN stringify_stub logic_ok
    (parse_as [clear_command; rounded_rect_command])
    canvas_800x600 (point 0 0) =
  paint_gui to_NaN to_NaN stringify_stub logic_ok
    (parse_as [clear_command; rounded_rect_command])
    canvas_800x600_moved (point 0 0).
Proof.
  apply (paint_gui_canvas_size_only to_NaN to_NaN stringify_stub logic_ok
           (parse_as [clear_command; rounded_rect_command])
           canvas_800x600 canvas_800x600_moved (point 0 0)); reflexivity.
Defined.

Lemma frame_cut_short_by_null :
  result (paint_gui to_NaN to_NaN stringify_stub logic_ok
            (parse_as [clear_command; VNull; rounded_rect_command])
            canvas_800x600 (point 0 0)) =
  Throw TypeError.
Proof.
  apply (paint_gui_cut_short to_NaN to_NaN stringify_stub logic_ok
           (parse_as [clear_command; VNull; rounded_rect_command])
           canvas_800x600 (point 0 0) "commands"
           [clear_command] VNull [rounded_rect_command] TypeError);
    try reflexivity.
  repeat constructor.
Defined.

Lemma triangle_skipped :
  surface_ops
    (trace (for_each ([clear_command] ++ triangle_command :: [circle_command])
              (paintCommand to_NaN to_NaN canvas_800x600))) =
  surface_ops
    (trace (for_each ([clear_command] ++ [circle_command])
              (paintCommand to_NaN to_NaN canvas_800x600))).
Proof.
  apply (unrecognized_command_skipped to_NaN to_NaN canvas_800x600
           [clear_command] triangle_command [circle_command]
           (VStr "triangle")); reflexivity.
Defined.

Lemma pointer_at_moved_canvas_origin :
  mouse_pos_from_event canvas_800x600_moved (pointer_at 10 20) = point 0 0.
Proof.
  apply (mouse_pos_at_canvas_origin canvas_800x600_moved (pointer_at 10 20));
    reflexivity.
Defined.

Lemma pointer_on_canvas_at_origin :
  exists x y,
    mouse_pos_from_event canvas_320x200 (pointer_at 12 34) = point x y
    /\ same_number x 12 = true
    /\ same_number y 34 = true.
Proof.
  apply (mouse_pos_canvas_at_origin canvas_320x200 (pointer_at 12 34));
    reflexivity.
Defined.

Lemma started_page_is_ready :
  listeners (start to_NaN to_NaN stringify_stub logic_ok (parse_as [])
               (Return tt) (Some canvas_800x600)) <> []
  /\ Return tt = Return tt :> outcome unit.
Proof.
  assert (listeners (start to_NaN to_NaN stringify_stub logic_ok (parse_as [])
                       (Return tt) (Some canvas_800x600)) <> []) as H
    by discriminate.
  split; [ exact H | ].
  exact (proj1 (start_paints_only_when_ready to_NaN to_NaN stringify_stub
                  logic_ok (parse_as []) (Return tt) (Some canvas_800x600)
                  (or_intror H))).
Defined.

